(** * operatorcert.entrypoints.github_pr

    A shallow embedding of [src/operatorcert/entrypoints/github_pr.py], the
  script that opens a GitHub pull request for a new operator bundle, and
  the properties of [get_pr_body], [get_head], [open_pr] and [main].

    Conventions of the embedding:
  - a Python [str] is a [string]; each [ascii] stands for one code point
    below 256;
  - a function that may raise returns a [result]; [open_pr], which reads
    the environment, talks to the network and logs, is a computation in the
    monad [M] over an explicit [World];
  - a [dict] with string keys whose order does not matter (the process
    environment, the request headers) is a [gmap string _]; a decoded JSON
    object keeps its pairs in an association list. *)

From Stdlib Require Import ZArith String Ascii List Lia DecimalString.
From stdpp Require Import base option list strings gmap.

Local Open Scope string_scope.
Local Open Scope Z_scope.

(** ** Python strings *)

Module PyStr.

(** The line feed written ["\n"] in the source. *)
Definition LF : string := String "010" "".

(** [str.isspace] on one character, for the code points below 256:
    TAB, LF, VT, FF, CR, the separators FS, GS, RS, US, the space,
    NEL (0x85) and the no-break space (0xA0). *)
Definition isspace (c : ascii) : bool :=
  let n := N_of_ascii c in
  (((9 <=? n) && (n <=? 13)) || ((28 <=? n) && (n <=? 32))
   || (n =? 133) || (n =? 160))%N.

(** [bool(s)] for a string: the empty string is falsy. *)
Definition truthy (s : string) : bool :=
  match s with
  | EmptyString => false
  | String _ _ => true
  end.

(** [s.split()], no separator given: runs of whitespace separate the
    tokens, and leading and trailing whitespace yields no empty token.
    [cur] is the token being read; it is empty between tokens. *)
Fixpoint split_ws (cur : string) (s : string) : list string :=
  match s with
  | EmptyString => if truthy cur then [cur] else []
  | String c s' =>
      if isspace c
      then (if truthy cur then cur :: split_ws "" s' else split_ws "" s')
      else split_ws (cur +:+ String c "") s'
  end.

Definition split (s : string) : list string := split_ws "" s.

(** [s.split(sep)] for a separator of one character: every occurrence
    separates, empty pieces are kept, and the result is never empty. *)
Fixpoint split_on (sep : ascii) (cur : string) (s : string) : list string :=
  match s with
  | EmptyString => [cur]
  | String c s' =>
      if Ascii.eqb c sep
      then cur :: split_on sep "" s'
      else split_on sep (cur +:+ String c "") s'
  end.

Definition split_sep (sep : ascii) (s : string) : list string :=
  split_on sep "" s.

(** One bound of a slice: a negative index counts from the end, and the
    result is clamped to [0 .. len]. *)
Definition slice_bound (len i : Z) : Z :=
  if i <? 0 then Z.max (i + len) 0 else Z.min i len.

(** [s[start:stop]]. *)
Definition slice (s : string) (start stop : Z) : string :=
  let len := Z.of_nat (String.length s) in
  let lo := slice_bound len start in
  let hi := slice_bound len stop in
  substring (Z.to_nat lo) (Z.to_nat (hi - lo)) s.

(** [str(n)] for an integer. *)
Definition of_int (n : Z) : string := NilZero.string_of_int (Z.to_int n).

(** [needle in hay]. *)
Fixpoint contains (needle hay : string) : bool :=
  if String.prefix needle hay then true
  else match hay with
       | EmptyString => false
       | String _ hay' => contains needle hay'
       end.

(** The character [c] occurs in [s]. *)
Fixpoint mem (c : ascii) (s : string) : bool :=
  match s with
  | EmptyString => false
  | String d s' => Ascii.eqb d c || mem c s'
  end.

(** Some character of [s] is whitespace. *)
Fixpoint has_space (s : string) : bool :=
  match s with
  | EmptyString => false
  | String c s' => isspace c || has_space s'
  end.

End PyStr.

(** ** Values, responses and exceptions *)

(** A value decoded from JSON. A number keeps its literal. *)
#[warnings="-register-all"]
Inductive JSON : Type :=
| JNull
| JBool (b : bool)
| JNumber (literal : string)
| JString (s : string)
| JArray (items : list JSON)
| JObject (pairs : list (string * JSON)).

(** A [requests.Response]: its status code, and what [resp.json()] gives,
    [None] when the body is not JSON (the call then raises). *)
Record Response : Type := mkResponse {
  status_code : Z;
  body_json : option JSON
}.

(** The exceptions the script meets. [HTTPError] carries the response it was
    raised for, as [requests] builds it; [LibraryError] stands for whatever
    else a library raises (a connection failure, a parser's own error). *)
Inductive exn : Type :=
| IndexError
| AttributeError
| Exception (msg : string)
| HTTPError (response : Response)
| JSONDecodeError
| LibraryError (name : string).

Inductive result (A : Type) : Type :=
| Ok (a : A)
| Raise (e : exn).
Arguments Ok {A} a.
Arguments Raise {A} e.

Definition bind_result {A B : Type} (r : result A) (k : A -> result B)
  : result B :=
  match r with
  | Ok a => k a
  | Raise e => Raise e
  end.

Declare Scope result_scope.
Delimit Scope result_scope with result.
Notation "x <- r ; k" := (bind_result r (fun x => k))
  (at level 100, r at next level, right associativity) : result_scope.

(** [l[i]] for an index that is not negative. *)
Definition list_index {A : Type} (l : list A) (i : nat) : result A :=
  match l !! i with
  | Some a => Ok a
  | None => Raise IndexError
  end.

(** [d.get(key)] on the pairs of a decoded object. *)
Fixpoint dict_get (key : string) (pairs : list (string * JSON)) : option JSON :=
  match pairs with
  | [] => None
  | (k, v) :: pairs' => if String.eqb k key then Some v else dict_get key pairs'
  end.

(** ** The command line *)

(** The [argparse] namespace of [setup_argparser]. The two options that are
    not required default to [None]. *)
Record Namespace : Type := mkNamespace {
  repository_url : string;
  repository_name : string;
  target_branch : string;
  source_branch : string;
  title : string;
  test_result_url : option string;
  test_logs_url : option string;
  cert_project_id : string;
  github_api_url : string;
  verbose : bool
}.

(** The namespace with [--test-result-url] given as [u] ([None]: not given). *)
Definition set_test_result_url (u : option string) (args : Namespace)
  : Namespace :=
  mkNamespace (repository_url args) (repository_name args)
    (target_branch args) (source_branch args) (title args)
    u (test_logs_url args)
    (cert_project_id args) (github_api_url args) (verbose args).

(** The namespace with [--test-logs-url] given as [u]. *)
Definition set_test_logs_url (u : option string) (args : Namespace)
  : Namespace :=
  mkNamespace (repository_url args) (repository_name args)
    (target_branch args) (source_branch args) (title args)
    (test_result_url args) u
    (cert_project_id args) (github_api_url args) (verbose args).

(** ** [get_pr_body] *)

(** One optional line: [if url: body += f"{label}{url}\n"]. *)
Definition add_url_line (label : string) (url : option string) (body : string)
  : string :=
  match url with
  | Some u => if PyStr.truthy u then body +:+ label +:+ u +:+ PyStr.LF else body
  | None => body
  end.

Definition get_pr_body (args : Namespace) : result string :=
  (let title_parts := PyStr.split (title args) in
   let body := "**New operator bundle**" +:+ PyStr.LF +:+ PyStr.LF in
   name <- list_index title_parts 1;
   let body := body +:+ "Name: **" +:+ name +:+ "**" +:+ PyStr.LF in
   version <- list_index title_parts 2;
   let body := body +:+ "Version: **" +:+ PyStr.slice version 1 (-1)
                    +:+ "**" +:+ PyStr.LF +:+ PyStr.LF in
   let body := body +:+ "Certification project: " +:+ cert_project_id args
                    +:+ PyStr.LF +:+ PyStr.LF in
   let body := add_url_line "Test result URL: " (test_result_url args) body in
   let body := add_url_line "Test logs URL: " (test_logs_url args) body in
   Ok body)%result.

(** ** [get_head] *)

Section GetHead.

(** [giturlparse] is a third-party library: what
    [giturlparse.parse(url).owner] evaluates to, the owner path or the
    exception raised on the way, is a parameter of the development. *)
Variable giturlparse_owner : string -> result string.

Definition get_head (repository_url branch : string) : result string :=
  (path <- giturlparse_owner repository_url;
   namespace <- list_index (PyStr.split_sep "/" path) 0;
   Ok (namespace +:+ ":" +:+ branch))%result.

End GetHead.

(** ** The world of [open_pr] *)

Inductive Method : Type := GET | POST.

(** What [requests.post(url, json=..., headers=...)] is called with. *)
Record Request : Type := mkRequest {
  req_method : Method;
  req_url : string;
  req_json : JSON;
  req_headers : gmap string string
}.

Inductive Level : Type := DEBUG | INFO | WARNING | ERROR.

(** The state [open_pr] reads and writes: the process environment, the
    requests handed to the HTTP transport so far, and the calls made on
    [LOGGER], both in order. *)
Record World : Type := mkWorld {
  environ : gmap string string;
  sent : list Request;
  logged : list (Level * string)
}.

(** A computation that reads and writes the world and may raise. *)
Definition M (A : Type) : Type := World -> result A * World.

Definition ret {A : Type} (a : A) : M A := fun w => (Ok a, w).

Definition raise {A : Type} (e : exn) : M A := fun w => (Raise e, w).

Definition bind {A B : Type} (m : M A) (k : A -> M B) : M B :=
  fun w =>
    match m w with
    | (Ok a, w') => k a w'
    | (Raise e, w') => (Raise e, w')
    end.

Declare Scope M_scope.
Delimit Scope M_scope with M.
Notation "x <- m ;; k" := (bind m (fun x => k))
  (at level 100, m at next level, right associativity) : M_scope.
Notation "m ;; k" := (bind m (fun _ => k))
  (at level 100, right associativity) : M_scope.

(** [try: body except <class>: handler], the class given by [catches]; the
    handler receives the exception, so that a bare [raise] can raise it
    again. *)
Definition try_except {A : Type} (body : M A) (catches : exn -> bool)
    (handler : exn -> M A) : M A :=
  fun w =>
    match body w with
    | (Ok a, w') => (Ok a, w')
    | (Raise e, w') => if catches e then handler e w' else (Raise e, w')
    end.

(** [except requests.HTTPError]. *)
Definition is_HTTPError (e : exn) : bool :=
  match e with
  | HTTPError _ => true
  | _ => false
  end.

(** [except Exception]: every exception of the model is one. *)
Definition is_Exception (e : exn) : bool := true.

(** [bool(x)] for an optional string: [None] and [""] are falsy. *)
Definition truthy_opt (x : option string) : bool :=
  match x with
  | Some s => PyStr.truthy s
  | None => false
  end.

(** [f"{x}"] for an optional string. *)
Definition format_opt (x : option string) : string :=
  match x with
  | Some s => s
  | None => "None"
  end.

(** [os.environ.get(key)]. *)
Definition os_environ_get (key : string) : M (option string) :=
  fun w => (Ok (environ w !! key), w).

Definition LOGGER_log (level : Level) (msg : string) : M unit :=
  fun w => (Ok tt, mkWorld (environ w) (sent w) (logged w ++ [(level, msg)])).

Definition LOGGER_error : string -> M unit := LOGGER_log ERROR.
Definition LOGGER_debug : string -> M unit := LOGGER_log DEBUG.

(** [resp.raise_for_status()] of [requests]: [HTTPError] for a client error
    (4xx) or a server error (5xx) status, nothing otherwise. *)
Definition raise_for_status (resp : Response) : M unit :=
  if (400 <=? status_code resp) && (status_code resp <? 600)
  then raise (HTTPError resp)
  else ret tt.

(** [resp.json()]. *)
Definition resp_json (resp : Response) : M JSON :=
  match body_json resp with
  | Some j => ret j
  | None => raise JSONDecodeError
  end.

(** [v.get(key)]: only a decoded object has the method. *)
Definition json_get (v : JSON) (key : string) : M (option JSON) :=
  match v with
  | JObject pairs => ret (dict_get key pairs)
  | _ => raise AttributeError
  end.

Section OpenPR.

(** The HTTP transport: the response [requests.post] returns for a request,
    or the exception it raises. *)
Variable remote : Request -> result Response.

(** [repr] of a decoded number, list or object (Python's own printing). *)
Variable py_repr : JSON -> string.

(** [str(v)] of a decoded value. *)
Definition py_str (v : JSON) : string :=
  match v with
  | JNull => "None"
  | JBool true => "True"
  | JBool false => "False"
  | JString s => s
  | _ => py_repr v
  end.

(** [f"{x}"] for the result of [dict.get]. *)
Definition format_value (x : option JSON) : string :=
  match x with
  | Some v => py_str v
  | None => "None"
  end.

(** [requests.post(url, json=data, headers=headers)]: the request reaches the
    transport, which answers or raises. *)
Definition requests_post (url : string) (data : JSON)
    (headers : gmap string string) : M Response :=
  fun w =>
    let req := mkRequest POST url data headers in
    (remote req, mkWorld (environ w) (sent w ++ [req]) (logged w)).

Definition open_pr (github_api_url repo_name head base title body : string)
  : M JSON :=
  (let pr_url := github_api_url +:+ "/repos/" +:+ repo_name +:+ "/pulls" in
   let data := JObject [("head", JString head); ("base", JString base);
                        ("title", JString title); ("body", JString body)] in
   token <- os_environ_get "GITHUB_TOKEN";;
   (if negb (truthy_opt token)
    then raise (Exception
           "Github API token is missing. Set GITHUB_TOKEN env variable.")
    else ret tt);;
   resp <- requests_post pr_url data
             {[ "Accept" := "application/vnd.github.v3+json";
                "Authorization" := "Bearer " +:+ format_opt token ]};;
   try_except (raise_for_status resp) is_HTTPError
     (fun e =>
        LOGGER_error ("Got error code from Github API "
                      +:+ PyStr.of_int (status_code resp));;
        try_except
          (j <- resp_json resp;;
           resp_msg <- json_get j "message";;
           LOGGER_error (format_value resp_msg);;
           j' <- resp_json resp;;
           LOGGER_debug (py_str j'))
          is_Exception
          (fun _ => ret tt);;
        raise e);;
   resp_json resp)%M.

End OpenPR.

(** The request [open_pr] builds from its arguments and the token: the URL of
    line 96, the data of line 97 and the headers of lines 106-109. *)
Definition pr_request (api repo head base title body token : string)
  : Request :=
  mkRequest POST (api +:+ "/repos/" +:+ repo +:+ "/pulls")
    (JObject [("head", JString head); ("base", JString base);
              ("title", JString title); ("body", JString body)])
    {[ "Accept" := "application/vnd.github.v3+json";
       "Authorization" := "Bearer " +:+ token ]}.

(** Every character of [s] is whitespace ([s] may be empty). *)
Fixpoint all_space (s : string) : bool :=
  match s with
  | EmptyString => true
  | String c s' => PyStr.isspace c && all_space s'
  end.

(** ** [main] *)

Definition LOGGER_info : string -> M unit := LOGGER_log INFO.

(** The process [main] runs in: the world of [open_pr], and the calls made
    on [logging.basicConfig], each with its level, in order. *)
Record Process : Type := mkProcess {
  configured : list Level;
  world : World
}.

(** [logging.basicConfig(level=level)]. *)
Definition logging_basicConfig (level : Level) (p : Process) : Process :=
  mkProcess (configured p ++ [level]) (world p).

(** A call that may raise and touches nothing of the world. *)
Definition lift_result {A : Type} (r : result A) : M A := fun w => (r, w).

Section Main.

Variable giturlparse_owner : string -> result string.
Variable remote : Request -> result Response.
Variable py_repr : JSON -> string.

(** [main], from the namespace [parser.parse_args()] returned on. *)
Definition main (args : Namespace) (p : Process) : result unit * Process :=
  let log_level := if verbose args then DEBUG else INFO in
  let p := logging_basicConfig log_level p in
  let (r, w) :=
    (pr_body <- lift_result (get_pr_body args);;
     head <- lift_result (get_head giturlparse_owner (repository_url args)
                            (source_branch args));;
     response <- open_pr remote py_repr (github_api_url args)
                   (repository_name args) head (target_branch args)
                   (title args) pr_body;;
     url <- json_get response "url";;
     LOGGER_info ("Pull request URL: " +:+ format_value py_repr url))%M
      (world p) in
  (r, mkProcess (configured p) w).

End Main.

(** ** Fixtures *)

Definition ex_args : Namespace :=
  mkNamespace "https://github.com/alice/my-repo" "acme/widget" "main" "fix-1"
    "Operator my-bundle (1.2.3)" None None "CERT-42"
    "https://api.github.com" false.

(** The same command line with another title. *)
Definition ex_args_titled (t : string) : Namespace :=
  mkNamespace "https://github.com/alice/my-repo" "acme/widget" "main" "fix-1"
    t None None "CERT-42" "https://api.github.com" false.

(** A parser that knows the repository URLs of the examples. *)
Definition ex_parser (url : string) : result string :=
  if String.eqb url "https://github.com/alice/my-repo" then Ok "alice"
  else if String.eqb url "https://gitlab.com/group/sub/project"
       then Ok "group/sub"
       else Raise (LibraryError "giturlparse").

(** A world with the token [tok] in the environment, nothing sent or logged. *)
Definition ex_world (tok : option string) : World :=
  mkWorld (match tok with
           | Some t => {[ "GITHUB_TOKEN" := t ]}
           | None => ∅
           end) [] [].

(** A transport that answers every request with [resp]. *)
Definition ex_remote (resp : Response) (req : Request) : result Response :=
  Ok resp.

Definition ex_repr (v : JSON) : string := "<json>".

(** The answers of the examples: a created pull request, a validation
    failure, and a 300 with a body. *)
Definition ex_created : Response :=
  mkResponse 201
    (Some (JObject
       [("url", JString "https://api.github.com/repos/acme/widget/pulls/7")])).

Definition ex_invalid : Response :=
  mkResponse 422 (Some (JObject [("message", JString "Validation Failed")])).

Definition ex_choices : Response :=
  mkResponse 300
    (Some (JObject
       [("url", JString "https://api.github.com/repos/acme/widget/pulls/7")])).

(** The request of the examples, sent with the token ["tok"]. *)
Definition ex_request : Request :=
  pr_request "https://api.github.com" "acme/widget" "alice:fix-1" "main"
    "Operator my-bundle (1.2.3)" "text" "tok".

(** The command line of the examples for another repository URL. *)
Definition ex_args_at (url : string) : Namespace :=
  mkNamespace url "acme/widget" "main" "fix-1"
    "Operator my-bundle (1.2.3)" None None "CERT-42"
    "https://api.github.com" false.

(** The body made for [ex_args], and the request [main] sends for it. *)
Definition ex_body : string :=
  "**New operator bundle**" +:+ PyStr.LF +:+ PyStr.LF
  +:+ "Name: **my-bundle**" +:+ PyStr.LF
  +:+ "Version: **1.2.3**" +:+ PyStr.LF +:+ PyStr.LF
  +:+ "Certification project: CERT-42" +:+ PyStr.LF +:+ PyStr.LF.

Definition ex_main_request : Request :=
  pr_request "https://api.github.com" "acme/widget" "alice:fix-1" "main"
    "Operator my-bundle (1.2.3)" ex_body "tok".

(** A process in which nothing has happened yet, with the token [tok]. *)
Definition ex_process (tok : option string) : Process :=
  mkProcess [] (ex_world tok).

(** A transport that fails to connect. *)
Definition ex_offline (req : Request) : result Response :=
  Raise (LibraryError "ConnectionError").

(** A 200 answer whose body is not JSON, a 201 answer whose body is a JSON
    list, a 201 answer without ["url"], and a 404 without ["message"]. *)
Definition ex_html : Response := mkResponse 200 None.

Definition ex_list : Response := mkResponse 201 (Some (JArray [])).

Definition ex_no_url : Response :=
  mkResponse 201 (Some (JObject [("id", JNumber "7")])).

Definition ex_not_found : Response :=
  mkResponse 404 (Some (JObject [("documentation_url", JString "docs")])).

(** ** Facts about strings *)

Module PyStrFacts.
Import PyStr.

Lemma app_nil_r (s : string) : s +:+ "" = s.
Proof.
  induction s as [|c s IH]; [reflexivity|].
  change (String c (s +:+ "") = String c s). now rewrite IH.
Qed.

Lemma app_nil_l (s : string) : "" +:+ s = s.
Proof. reflexivity. Qed.

Lemma app_cons (c : ascii) (s t : string) :
  String c s +:+ t = String c (s +:+ t).
Proof. reflexivity. Qed.

Lemma app_assoc (s t u : string) : (s +:+ t) +:+ u = s +:+ (t +:+ u).
Proof.
  induction s as [|c s IH]; [reflexivity|].
  rewrite !app_cons. now rewrite IH.
Qed.

Lemma app_snoc (s t : string) (c : ascii) :
  (s +:+ String c "") +:+ t = s +:+ String c t.
Proof. now rewrite app_assoc. Qed.

Lemma length_app (s t : string) :
  String.length (s +:+ t) = (String.length s + String.length t)%nat.
Proof.
  induction s as [|c s IH]; [reflexivity|].
  rewrite app_cons. simpl. now rewrite IH.
Qed.

Lemma truthy_true (s : string) : truthy s = true <-> s <> "".
Proof. destruct s; simpl; split; congruence. Qed.

Lemma truthy_snoc (s : string) (c : ascii) : truthy (s +:+ String c "") = true.
Proof. destruct s; reflexivity. Qed.

Lemma has_space_app (s t : string) :
  has_space (s +:+ t) = has_space s || has_space t.
Proof.
  induction s as [|c s IH]; [reflexivity|].
  rewrite app_cons. simpl. rewrite IH. now rewrite orb_assoc.
Qed.

Lemma mem_app (c : ascii) (s t : string) :
  mem c (s +:+ t) = mem c s || mem c t.
Proof.
  induction s as [|d s IH]; [reflexivity|].
  rewrite app_cons. simpl. rewrite IH. now rewrite orb_assoc.
Qed.

Lemma substring_0_app (s t : string) :
  substring 0 (String.length s) (s +:+ t) = s.
Proof.
  induction s as [|c s IH]; simpl.
  - now destruct t.
  - now rewrite IH.
Qed.

(** A string that is not empty ends in a last character. *)
Lemma snoc_inv (s : string) :
  s <> "" -> exists init b, s = init +:+ String b "".
Proof.
  induction s as [|c s IH]; [congruence|]. intros _.
  destruct s as [|d s].
  - now exists "", c.
  - destruct IH as (init & b & E); [congruence|].
    exists (String c init), b. rewrite app_cons. now rewrite E.
Qed.

(** *** Slices *)

(** [s[1:-1]] drops the first and the last character. *)
Lemma slice_1_m1_strip (a b : ascii) (mid : string) :
  slice (String a (mid +:+ String b "")) 1 (-1) = mid.
Proof.
  unfold slice, slice_bound.
  change (1 <? 0) with false. change (-1 <? 0) with true. cbv iota.
  cbn [String.length]. rewrite length_app. cbn [String.length].
  set (n := String.length mid).
  replace (Z.min 1 (Z.of_nat (S (n + 1)))) with 1 by lia.
  replace (Z.max (-1 + Z.of_nat (S (n + 1))) 0 - 1) with (Z.of_nat n)
    by lia.
  change (Z.to_nat 1) with 1%nat. rewrite Nat2Z.id.
  cbn [substring]. apply substring_0_app.
Qed.

(** On a string of fewer than two characters [s[1:-1]] is empty. *)
Lemma slice_1_m1_short (s : string) :
  (String.length s < 2)%nat -> slice s 1 (-1) = "".
Proof.
  destruct s as [|a [|b s]]; simpl; intros H; [reflexivity..|lia].
Qed.

Lemma slice_1_m1_long (s : string) :
  (2 <= String.length s)%nat ->
  exists a b, s = String a (slice s 1 (-1) +:+ String b "").
Proof.
  destruct s as [|a s]; simpl; [lia|]. intros H.
  destruct (snoc_inv s) as (mid & b & ->).
  { destruct s; simpl in H; [lia|congruence]. }
  exists a, b. now rewrite slice_1_m1_strip.
Qed.

(** *** [split] without a separator *)

(** Every token is not empty and holds no whitespace. *)
Lemma split_ws_tokens (s cur : string) :
  has_space cur = false ->
  Forall (fun t => truthy t = true /\ has_space t = false) (split_ws cur s).
Proof.
  revert cur. induction s as [|c s IH]; intros cur Hcur; simpl.
  - destruct (truthy cur) eqn:E; auto.
  - destruct (isspace c) eqn:Ec.
    + destruct (truthy cur) eqn:E; auto.
    + apply IH. rewrite has_space_app, Hcur. simpl. now rewrite Ec.
Qed.

Lemma split_tokens (s : string) :
  Forall (fun t => truthy t = true /\ has_space t = false) (split s).
Proof. now apply split_ws_tokens. Qed.

(** Reading on through a run without whitespace extends the token. *)
Lemma split_ws_word (t s cur : string) :
  has_space t = false -> split_ws cur (t +:+ s) = split_ws (cur +:+ t) s.
Proof.
  revert cur. induction t as [|c t IH]; intros cur H.
  - now rewrite app_nil_r.
  - simpl in H. apply orb_false_elim in H as [Hc Ht].
    rewrite app_cons. simpl. rewrite Hc, IH by exact Ht.
    now rewrite app_snoc.
Qed.

(** Words joined by single spaces are split into these words. *)
Lemma split_three_words (t0 t1 t2 : string) :
  t0 <> "" -> t1 <> "" -> t2 <> "" ->
  has_space t0 = false -> has_space t1 = false -> has_space t2 = false ->
  split (t0 +:+ " " +:+ t1 +:+ " " +:+ t2) = [t0; t1; t2].
Proof.
  intros N0 N1 N2 H0 H1 H2. unfold split.
  apply truthy_true in N0, N1, N2.
  rewrite split_ws_word by exact H0. rewrite app_cons, !app_nil_l.
  cbn [split_ws isspace]. simpl (isspace " "). cbv iota. rewrite N0.
  rewrite split_ws_word by exact H1. rewrite app_cons, !app_nil_l.
  cbn [split_ws]. simpl (isspace " "). cbv iota. rewrite N1.
  rewrite <- (app_nil_r t2) at 1. rewrite split_ws_word by exact H2.
  rewrite app_nil_l. cbn [split_ws]. now rewrite N2.
Qed.

Example split_title :
  split (String "009" "Operator   my-bundle" +:+ LF +:+ "(1.2.3) ")
  = ["Operator"; "my-bundle"; "(1.2.3)"].
Proof. reflexivity. Qed.

(** *** [split] on a separator *)

(** The first piece is what precedes the first separator. *)
Lemma split_on_first (sep : ascii) (s cur : string) :
  exists first rest pieces,
    split_on sep cur s = (cur +:+ first) :: pieces
    /\ s = first +:+ rest
    /\ mem sep first = false
    /\ (rest = "" \/ exists r, rest = String sep r).
Proof.
  revert cur. induction s as [|c s IH]; intros cur; simpl.
  - exists "", "", []. rewrite app_nil_r. auto.
  - destruct (Ascii.eqb c sep) eqn:E.
    + apply Ascii.eqb_eq in E as ->.
      exists "", (String sep s), (split_on sep "" s).
      rewrite app_nil_r. repeat split; eauto.
    + destruct (IH (cur +:+ String c "")) as (f & r & ps & E1 & E2 & E3 & E4).
      exists (String c f), r, ps. rewrite E1, app_snoc, app_cons, <- E2.
      simpl. rewrite E, E3. auto.
Qed.

End PyStrFacts.

(** ** [get_pr_body] *)

Module BodyFacts.
Import PyStr PyStrFacts.

(** Running the formatter once the title is known to have three tokens. *)
Lemma get_pr_body_three (args : Namespace) (verb name ver : string)
    (rest : list string) :
  split (title args) = verb :: name :: ver :: rest ->
  get_pr_body args =
    Ok (add_url_line "Test logs URL: " (test_logs_url args)
          (add_url_line "Test result URL: " (test_result_url args)
             ("**New operator bundle**" +:+ LF +:+ LF
              +:+ "Name: **" +:+ name +:+ "**" +:+ LF
              +:+ "Version: **" +:+ slice ver 1 (-1) +:+ "**" +:+ LF +:+ LF
              +:+ "Certification project: " +:+ cert_project_id args
              +:+ LF +:+ LF))).
Proof.
  intros E. unfold get_pr_body. rewrite E.
  change (list_index (verb :: name :: ver :: rest) 1) with (Ok name).
  change (list_index (verb :: name :: ver :: rest) 2) with (Ok ver).
  cbn [bind_result]. now rewrite !app_assoc.
Qed.

(** C1. A title of fewer than three whitespace-separated tokens makes
    [get_pr_body] fail, with the [IndexError] of the token look-up (the
    failure the specification calls [MalformedTitleError]) and with no other
    error and no output; a title of at least three tokens makes it return a
    body. *)
Theorem get_pr_body_title_tokens (args : Namespace) :
  ((length (split (title args)) < 3)%nat ->
   get_pr_body args = Raise IndexError)
  /\ ((3 <= length (split (title args)))%nat ->
      exists body, get_pr_body args = Ok body).
Proof.
  destruct (split (title args)) as [|verb [|name [|ver rest]]] eqn:E.
  1-3: split; [intros _; unfold get_pr_body; now rewrite E
              |cbn [length]; lia].
  split; [cbn [length]; lia|intros _].
  rewrite (get_pr_body_three args verb name ver rest E). eauto.
Qed.

Example get_pr_body_no_title :
  get_pr_body (ex_args_titled "") = Raise IndexError.
Proof. reflexivity. Qed.

Example get_pr_body_two_tokens :
  get_pr_body (ex_args_titled "Operator my-bundle ") = Raise IndexError.
Proof. reflexivity. Qed.

Example get_pr_body_four_tokens :
  get_pr_body (ex_args_titled " Operator  my-bundle (1.2.3) now")
  = get_pr_body ex_args.
Proof. reflexivity. Qed.

(** C3. For a title of at least three tokens the body is the fixed template
    filled with the second token as the name and, as the version, the third
    token without its first and its last character (nothing is left of a
    third token of one character), followed by the optional lines. The
    title ["Operator my-bundle (1.2.3)"] with project ["CERT-42"] gives a
    body with [Name: **my-bundle**] and [Version: **1.2.3**] and neither
    optional line. *)
Theorem get_pr_body_template (args : Namespace) (verb name ver : string)
    (rest : list string) :
  split (title args) = verb :: name :: ver :: rest ->
  (exists version,
     get_pr_body args =
       Ok (add_url_line "Test logs URL: " (test_logs_url args)
             (add_url_line "Test result URL: " (test_result_url args)
                ("**New operator bundle**" +:+ LF +:+ LF
                 +:+ "Name: **" +:+ name +:+ "**" +:+ LF
                 +:+ "Version: **" +:+ version +:+ "**" +:+ LF +:+ LF
                 +:+ "Certification project: " +:+ cert_project_id args
                 +:+ LF +:+ LF)))
     /\ ((2 <= String.length ver)%nat ->
         exists a b, ver = String a (version +:+ String b ""))
     /\ ((String.length ver < 2)%nat -> version = ""))
  /\ (exists body,
        get_pr_body ex_args = Ok body
        /\ contains "Name: **my-bundle**" body = true
        /\ contains "Version: **1.2.3**" body = true
        /\ contains "Test result URL:" body = false
        /\ contains "Test logs URL:" body = false).
Proof.
  intros E. split.
  - exists (slice ver 1 (-1)). split; [|split].
    + exact (get_pr_body_three args verb name ver rest E).
    + apply slice_1_m1_long.
    + apply slice_1_m1_short.
  - eexists. split; [vm_compute; reflexivity|].
    repeat split; vm_compute; reflexivity.
Qed.

Lemma get_pr_body_template_witness :
  split (title ex_args) = ["Operator"; "my-bundle"; "(1.2.3)"]
  /\ exists version,
       get_pr_body ex_args =
         Ok ("**New operator bundle**" +:+ LF +:+ LF
             +:+ "Name: **my-bundle**" +:+ LF
             +:+ "Version: **" +:+ version +:+ "**" +:+ LF +:+ LF
             +:+ "Certification project: CERT-42" +:+ LF +:+ LF)
       /\ "(1.2.3)" = String "(" (version +:+ String ")" "").
Proof.
  split; [reflexivity|].
  destruct (get_pr_body_template ex_args "Operator" "my-bundle" "(1.2.3)" [])
    as [(version & Hbody & Hlong & _) _]; [reflexivity|].
  exists version. split; [exact Hbody|].
  destruct Hlong as (a & b & Hab); [simpl; lia|].
  assert (a = "("%char) as -> by (now inversion Hab).
  inversion Hab as [Hmid].
  assert (String.length version = 5%nat) as Hlen.
  { apply (f_equal String.length) in Hmid. rewrite length_app in Hmid.
    simpl in Hmid. lia. }
  destruct version as [|c1 [|c2 [|c3 [|c4 [|c5 [|c6 v]]]]]];
    simpl in Hlen; try lia.
  cbv in Hmid. inversion Hmid. reflexivity.
Defined.

(** C7. With both optional URLs given and not empty, the body is the body
    without URLs, which ends with the certification project line and the
    blank line after it, followed by the [Test result URL:] line and then the
    [Test logs URL:] line; with neither given nothing follows the
    certification project line. *)
Theorem get_pr_body_url_lines (args : Namespace) (base u1 u2 : string) :
  get_pr_body (set_test_result_url None (set_test_logs_url None args))
    = Ok base ->
  u1 <> "" -> u2 <> "" ->
  get_pr_body (set_test_result_url (Some u1) (set_test_logs_url (Some u2) args))
    = Ok (base +:+ "Test result URL: " +:+ u1 +:+ LF
               +:+ "Test logs URL: " +:+ u2 +:+ LF)
  /\ exists pre,
       base = pre +:+ "Certification project: " +:+ cert_project_id args
                  +:+ LF +:+ LF.
Proof.
  intros Hbase N1 N2. apply truthy_true in N1, N2.
  destruct (split (title args)) as [|verb [|name [|ver rest]]] eqn:E.
  1-3: unfold get_pr_body in Hbase; cbn [title set_test_result_url
         set_test_logs_url] in Hbase; rewrite E in Hbase; discriminate.
  rewrite (get_pr_body_three _ verb name ver rest) in Hbase by exact E.
  rewrite (get_pr_body_three _ verb name ver rest) by exact E.
  cbn [set_test_result_url set_test_logs_url test_result_url test_logs_url
       cert_project_id add_url_line] in *.
  rewrite N1, N2. injection Hbase as <-. split.
  - now rewrite !app_assoc.
  - exists ("**New operator bundle**" +:+ LF +:+ LF
            +:+ "Name: **" +:+ name +:+ "**" +:+ LF
            +:+ "Version: **" +:+ slice ver 1 (-1) +:+ "**" +:+ LF +:+ LF).
    now rewrite !app_assoc.
Qed.

Lemma get_pr_body_url_lines_witness :
  get_pr_body
    (set_test_result_url (Some "https://ci/result")
       (set_test_logs_url (Some "https://ci/logs") ex_args))
  = Ok ("**New operator bundle**" +:+ LF +:+ LF
        +:+ "Name: **my-bundle**" +:+ LF
        +:+ "Version: **1.2.3**" +:+ LF +:+ LF
        +:+ "Certification project: CERT-42" +:+ LF +:+ LF
        +:+ "Test result URL: https://ci/result" +:+ LF
        +:+ "Test logs URL: https://ci/logs" +:+ LF).
Proof.
  destruct (get_pr_body_url_lines ex_args
              ("**New operator bundle**" +:+ LF +:+ LF
               +:+ "Name: **my-bundle**" +:+ LF
               +:+ "Version: **1.2.3**" +:+ LF +:+ LF
               +:+ "Certification project: CERT-42" +:+ LF +:+ LF)
              "https://ci/result" "https://ci/logs") as [H _].
  - reflexivity.
  - discriminate.
  - discriminate.
  - exact H.
Defined.

(** C9. An optional URL given as the empty string is treated as one that
    was not given: the body is the same, so its line is left out. *)
Theorem get_pr_body_empty_url_absent (args : Namespace) :
  get_pr_body (set_test_result_url (Some "") args)
    = get_pr_body (set_test_result_url None args)
  /\ get_pr_body (set_test_logs_url (Some "") args)
     = get_pr_body (set_test_logs_url None args).
Proof. split; reflexivity. Qed.

End BodyFacts.

(** ** [get_head] *)

Section HeadFacts.
Import PyStr PyStrFacts.

Variable giturlparse_owner : string -> result string.

(** C2. When the parser gives the owner path of the repository URL,
    [get_head] returns ["{namespace}:{branch}"], the namespace being the
    part of the owner path before its first ["/"] (all of it when there is
    none). So the owner ["alice"] and the branch ["fix-1"] give
    ["alice:fix-1"], and the owner path ["group/sub"] gives the namespace
    ["group"]. *)
Theorem get_head_namespace (url branch path : string) :
  giturlparse_owner url = Ok path ->
  (exists namespace rest,
     get_head giturlparse_owner url branch = Ok (namespace +:+ ":" +:+ branch)
     /\ path = namespace +:+ rest
     /\ mem "/" namespace = false
     /\ (rest = "" \/ exists r, rest = String "/" r))
  /\ (path = "alice" -> branch = "fix-1" ->
      get_head giturlparse_owner url branch = Ok "alice:fix-1")
  /\ (path = "group/sub" ->
      get_head giturlparse_owner url branch = Ok ("group:" +:+ branch)).
Proof.
  intros Hp. unfold get_head. rewrite Hp. cbn [bind_result]. split; [|split].
  - destruct (split_on_first "/" path "") as (ns & rest & ps & E & E' & Hm & Hr).
    exists ns, rest. unfold split_sep. rewrite E, app_nil_l. auto.
  - intros -> ->. reflexivity.
  - intros ->. reflexivity.
Qed.


(** The look-up of the first piece never fails: a failure of [get_head] is a
    failure of the parser. *)
Lemma get_head_fails_only_in_parser (url branch : string) (e : exn) :
  get_head giturlparse_owner url branch = Raise e ->
  giturlparse_owner url = Raise e.
Proof.
  unfold get_head. destruct (giturlparse_owner url) as [path|e']; cbn.
  - destruct (split_on_first "/" path "") as (ns & rest & ps & E & _).
    unfold split_sep. rewrite E. discriminate.
  - congruence.
Qed.

End HeadFacts.

Lemma get_head_namespace_witness :
  get_head ex_parser "https://github.com/alice/my-repo" "fix-1"
    = Ok "alice:fix-1".
Proof.
  apply (get_head_namespace ex_parser "https://github.com/alice/my-repo"
           "fix-1" "alice"); reflexivity.
Defined.


Example get_head_group_sub :
  get_head ex_parser "https://gitlab.com/group/sub/project" "main"
    = Ok "group:main".
Proof. reflexivity. Qed.

(** ** [open_pr] *)

Section OpenPRFacts.
Import PyStr PyStrFacts.

Variable remote : Request -> result Response.
Variable py_repr : JSON -> string.

(** Without a usable token [open_pr] raises before it does anything else. *)
Lemma open_pr_no_token (api repo head base title body : string) (w : World) :
  truthy_opt (environ w !! "GITHUB_TOKEN") = false ->
  open_pr remote py_repr api repo head base title body w
  = (Raise (Exception
       "Github API token is missing. Set GITHUB_TOKEN env variable."), w).
Proof.
  intros H. unfold open_pr, bind, os_environ_get. now rewrite H.
Qed.

(** With a token, [open_pr] hands one request to the transport and goes on
    with its answer. *)
Lemma open_pr_with_token (api repo head base title body token : string)
    (w : World) :
  environ w !! "GITHUB_TOKEN" = Some token -> token <> "" ->
  open_pr remote py_repr api repo head base title body w
  = let req := pr_request api repo head base title body token in
    let w1 := mkWorld (environ w) (sent w ++ [req]) (logged w) in
    match remote req with
    | Raise e => (Raise e, w1)
    | Ok resp =>
        bind
          (try_except (raise_for_status resp) is_HTTPError
             (fun e =>
                bind (LOGGER_error ("Got error code from Github API "
                                    +:+ of_int (status_code resp)))
                  (fun _ =>
                     bind
                       (try_except
                          (bind (resp_json resp) (fun j =>
                           bind (json_get j "message") (fun resp_msg =>
                           bind (LOGGER_error
                                   (format_value py_repr resp_msg)) (fun _ =>
                           bind (resp_json resp) (fun j' =>
                           LOGGER_debug (py_str py_repr j'))))))
                          is_Exception (fun _ => ret tt))
                       (fun _ => raise e))))
          (fun _ => resp_json resp) w1
    end.
Proof.
  intros H N. apply truthy_true in N.
  unfold open_pr, bind at 1 2, os_environ_get. rewrite H.
  cbn [truthy_opt]. rewrite N. cbn [negb ret format_opt].
  unfold bind at 1, requests_post.
  fold (pr_request api repo head base title body token).
  destruct (remote _); reflexivity.
Qed.

(** C5. With [GITHUB_TOKEN] unset, [open_pr] fails with the exception that
    reports the missing token (the specification's
    [MissingCredentialError]) and leaves the world as it was: no request has
    reached the HTTP transport and nothing was logged. *)
Theorem open_pr_token_unset (api repo head base title body : string)
    (w : World) :
  environ w !! "GITHUB_TOKEN" = None ->
  open_pr remote py_repr api repo head base title body w
  = (Raise (Exception
       "Github API token is missing. Set GITHUB_TOKEN env variable."), w).
Proof. intros H. apply open_pr_no_token. now rewrite H. Qed.

(** C10. With [GITHUB_TOKEN] set to the empty string, [open_pr] behaves as
    with the variable unset: the same exception, and no request issued. *)
Theorem open_pr_token_empty (api repo head base title body : string)
    (w : World) :
  environ w !! "GITHUB_TOKEN" = Some "" ->
  open_pr remote py_repr api repo head base title body w
  = (Raise (Exception
       "Github API token is missing. Set GITHUB_TOKEN env variable."), w).
Proof. intros H. apply open_pr_no_token. now rewrite H. Qed.

(** What follows the answer [resp] when its status is a client or a server
    error: the two or three log calls, then the [HTTPError] again. *)
Lemma after_error_status (resp : Response) (w : World) :
  400 <= status_code resp < 600 ->
  bind
    (try_except (raise_for_status resp) is_HTTPError
       (fun e =>
          bind (LOGGER_error ("Got error code from Github API "
                              +:+ of_int (status_code resp)))
            (fun _ =>
               bind
                 (try_except
                    (bind (resp_json resp) (fun j =>
                     bind (json_get j "message") (fun resp_msg =>
                     bind (LOGGER_error
                             (format_value py_repr resp_msg)) (fun _ =>
                     bind (resp_json resp) (fun j' =>
                     LOGGER_debug (py_str py_repr j'))))))
                    is_Exception (fun _ => ret tt))
                 (fun _ => raise e))))
    (fun _ => resp_json resp) w
  = (Raise (HTTPError resp),
     mkWorld (environ w) (sent w)
       (logged w
        ++ (ERROR, "Got error code from Github API "
                   +:+ of_int (status_code resp))
           :: match body_json resp with
              | Some (JObject pairs) =>
                  [(ERROR, format_value py_repr (dict_get "message" pairs));
                   (DEBUG, py_repr (JObject pairs))]
              | _ => []
              end)).
Proof.
  intros [Hlo Hhi].
  unfold bind at 1, try_except at 1, raise_for_status.
  apply Z.leb_le in Hlo. apply Z.ltb_lt in Hhi. rewrite Hlo, Hhi.
  cbn [andb raise is_HTTPError].
  unfold bind, try_except, resp_json, LOGGER_error, LOGGER_debug, LOGGER_log.
  cbn [environ sent logged].
  destruct (body_json resp) as [[| | | | |pairs]|];
    cbn [ret raise json_get is_Exception environ sent logged py_str];
    rewrite <- ?List.app_assoc; reflexivity.
Qed.

(** With any other status the answer is decoded and returned. *)
Lemma after_other_status (resp : Response) (w : World) :
  ~ (400 <= status_code resp < 600) ->
  bind
    (try_except (raise_for_status resp) is_HTTPError
       (fun e =>
          bind (LOGGER_error ("Got error code from Github API "
                              +:+ of_int (status_code resp)))
            (fun _ =>
               bind
                 (try_except
                    (bind (resp_json resp) (fun j =>
                     bind (json_get j "message") (fun resp_msg =>
                     bind (LOGGER_error
                             (format_value py_repr resp_msg)) (fun _ =>
                     bind (resp_json resp) (fun j' =>
                     LOGGER_debug (py_str py_repr j'))))))
                    is_Exception (fun _ => ret tt))
                 (fun _ => raise e))))
    (fun _ => resp_json resp) w
  = resp_json resp w.
Proof.
  intros H.
  unfold bind at 1, try_except at 1, raise_for_status.
  destruct ((400 <=? status_code resp) && (status_code resp <? 600)) eqn:E.
  - apply andb_prop in E as [Hlo Hhi].
    apply Z.leb_le in Hlo. apply Z.ltb_lt in Hhi. lia.
  - reflexivity.
Qed.

(** C8. With a token in [GITHUB_TOKEN] (one that is not empty), [open_pr]
    issues one request: a POST to ["{github_api_url}/repos/{repo_name}/pulls"]
    whose JSON body is the object of [head], [base], [title] and [body] and
    whose headers are [Accept: application/vnd.github.v3+json] and
    [Authorization: Bearer <token>]. When the answer has a 2xx status and a
    JSON body, that decoded body is returned as it is, and nothing is
    logged. *)
Theorem open_pr_request (api repo head base title body token : string)
    (w : World) :
  environ w !! "GITHUB_TOKEN" = Some token -> token <> "" ->
  sent (snd (open_pr remote py_repr api repo head base title body w))
  = (sent w
     ++ [mkRequest POST (api +:+ "/repos/" +:+ repo +:+ "/pulls")
           (JObject [("head", JString head); ("base", JString base);
                     ("title", JString title); ("body", JString body)])
           {[ "Accept" := "application/vnd.github.v3+json";
              "Authorization" := "Bearer " +:+ token ]}])%list
  /\ (forall (resp : Response) (j : JSON),
        remote (pr_request api repo head base title body token) = Ok resp ->
        200 <= status_code resp < 300 ->
        body_json resp = Some j ->
        open_pr remote py_repr api repo head base title body w
        = (Ok j,
           mkWorld (environ w)
             (sent w ++ [pr_request api repo head base title body token])
             (logged w))).
Proof.
  intros H N. rewrite (open_pr_with_token _ _ _ _ _ _ token) by assumption.
  cbv zeta. fold (pr_request api repo head base title body token). split.
  - destruct (remote _) as [resp|e]; [|reflexivity].
    destruct (Z_le_dec 400 (status_code resp)) as [Hlo|Hlo];
      [destruct (Z_lt_dec (status_code resp) 600) as [Hhi|Hhi]|].
    + rewrite after_error_status by lia. reflexivity.
    + rewrite after_other_status by lia.
      unfold resp_json. now destruct (body_json resp).
    + rewrite after_other_status by lia.
      unfold resp_json. now destruct (body_json resp).
  - intros resp j -> Hs Hj. rewrite after_other_status by lia.
    unfold resp_json. now rewrite Hj.
Qed.

(** C6, as the code has it. When the answer has a client error (4xx) or a
    server error (5xx) status, [open_pr] fails with the [HTTPError] of that
    response, which carries the status code and the body with its
    ["message"] field (the specification's [ApiRequestError]), and with no
    other exception. It has issued this one request and no other, and has
    logged the status code and, when the body is a JSON object, its message
    (as an error) and the body (for debugging). *)
Theorem open_pr_http_error (api repo head base title body token : string)
    (w : World) (resp : Response) :
  environ w !! "GITHUB_TOKEN" = Some token -> token <> "" ->
  remote (pr_request api repo head base title body token) = Ok resp ->
  400 <= status_code resp < 600 ->
  exists w',
    open_pr remote py_repr api repo head base title body w
    = (Raise (HTTPError resp), w')
    /\ environ w' = environ w
    /\ sent w'
       = (sent w ++ [pr_request api repo head base title body token])%list
    /\ logged w'
       = (logged w
          ++ (ERROR, "Got error code from Github API "
                     +:+ of_int (status_code resp))
             :: match body_json resp with
                | Some (JObject pairs) =>
                    [(ERROR, format_value py_repr (dict_get "message" pairs));
                     (DEBUG, py_repr (JObject pairs))]
                | _ => []
                end)%list
    /\ (forall (pairs : list (string * JSON)) (m : string),
          body_json resp = Some (JObject pairs) ->
          dict_get "message" pairs = Some (JString m) ->
          In (ERROR, m) (logged w')).
Proof.
  intros H N Hr Hs.
  rewrite (open_pr_with_token _ _ _ _ _ _ token) by assumption.
  cbv zeta. rewrite Hr, after_error_status by exact Hs.
  eexists. split; [reflexivity|]. cbn [environ sent logged].
  repeat split.
  intros pairs m -> Hm. rewrite Hm. cbn [format_value py_str].
  apply in_or_app. right. simpl. auto.
Qed.

(** An answer whose status is neither 2xx nor an error status (1xx, 3xx,
    600 and above) is handled as a success: its body is decoded and
    returned, and nothing is logged. *)
Lemma open_pr_other_status (api repo head base title body token : string)
    (w : World) (resp : Response) (j : JSON) :
  environ w !! "GITHUB_TOKEN" = Some token -> token <> "" ->
  remote (pr_request api repo head base title body token) = Ok resp ->
  ~ (400 <= status_code resp < 600) ->
  body_json resp = Some j ->
  open_pr remote py_repr api repo head base title body w
  = (Ok j,
     mkWorld (environ w)
       (sent w ++ [pr_request api repo head base title body token])
       (logged w)).
Proof.
  intros H N Hr Hs Hj.
  rewrite (open_pr_with_token _ _ _ _ _ _ token) by assumption.
  cbv zeta. rewrite Hr, after_other_status by exact Hs.
  unfold resp_json. now rewrite Hj.
Qed.

End OpenPRFacts.

Lemma open_pr_token_unset_witness :
  open_pr (ex_remote ex_created) ex_repr "https://api.github.com"
    "acme/widget" "alice:fix-1" "main" "Operator my-bundle (1.2.3)" "text"
    (ex_world None)
  = (Raise (Exception
       "Github API token is missing. Set GITHUB_TOKEN env variable."),
     ex_world None).
Proof. apply open_pr_token_unset. reflexivity. Defined.

Lemma open_pr_token_empty_witness :
  open_pr (ex_remote ex_created) ex_repr "https://api.github.com"
    "acme/widget" "alice:fix-1" "main" "Operator my-bundle (1.2.3)" "text"
    (ex_world (Some ""))
  = (Raise (Exception
       "Github API token is missing. Set GITHUB_TOKEN env variable."),
     ex_world (Some "")).
Proof. apply open_pr_token_empty. vm_compute. reflexivity. Defined.

Lemma open_pr_request_witness :
  sent (snd (open_pr (ex_remote ex_created) ex_repr "https://api.github.com"
               "acme/widget" "alice:fix-1" "main"
               "Operator my-bundle (1.2.3)" "text" (ex_world (Some "tok"))))
  = [ex_request]
  /\ fst (open_pr (ex_remote ex_created) ex_repr "https://api.github.com"
            "acme/widget" "alice:fix-1" "main"
            "Operator my-bundle (1.2.3)" "text" (ex_world (Some "tok")))
     = Ok (JObject
         [("url",
           JString "https://api.github.com/repos/acme/widget/pulls/7")]).
Proof.
  destruct (open_pr_request (ex_remote ex_created) ex_repr
              "https://api.github.com" "acme/widget" "alice:fix-1" "main"
              "Operator my-bundle (1.2.3)" "text" "tok"
              (ex_world (Some "tok"))) as [Hsent Hret].
  - vm_compute. reflexivity.
  - discriminate.
  - split; [exact Hsent|].
    rewrite (Hret ex_created
               (JObject
                  [("url",
                    JString
                      "https://api.github.com/repos/acme/widget/pulls/7")])).
    + reflexivity.
    + reflexivity.
    + simpl. lia.
    + reflexivity.
Defined.

Lemma open_pr_http_error_witness :
  exists w',
    open_pr (ex_remote ex_invalid) ex_repr "https://api.github.com"
      "acme/widget" "alice:fix-1" "main" "Operator my-bundle (1.2.3)" "text"
      (ex_world (Some "tok"))
    = (Raise (HTTPError ex_invalid), w')
    /\ sent w' = [ex_request]
    /\ In (ERROR, "Validation Failed") (logged w').
Proof.
  destruct (open_pr_http_error (ex_remote ex_invalid) ex_repr
              "https://api.github.com" "acme/widget" "alice:fix-1" "main"
              "Operator my-bundle (1.2.3)" "text" "tok"
              (ex_world (Some "tok")) ex_invalid)
    as (w' & Hout & _ & Hsent & _ & Hmsg).
  - vm_compute. reflexivity.
  - discriminate.
  - reflexivity.
  - simpl. lia.
  - exists w'. split; [exact Hout|]. split; [exact Hsent|].
    apply (Hmsg [("message", JString "Validation Failed")]); reflexivity.
Defined.

(** C6 fails as stated: the status 300 is not a 2xx status, and yet
    [open_pr] does not fail on such an answer; it returns its decoded
    body. *)
Lemma open_pr_status_300_returns :
  ~ (200 <= status_code ex_choices < 300)
  /\ open_pr (ex_remote ex_choices) ex_repr "https://api.github.com"
       "acme/widget" "alice:fix-1" "main" "Operator my-bundle (1.2.3)"
       "text" (ex_world (Some "tok"))
     = (Ok (JObject
          [("url",
            JString "https://api.github.com/repos/acme/widget/pulls/7")]),
        mkWorld (environ (ex_world (Some "tok"))) [ex_request] []).
Proof.
  split; [simpl; lia|]. vm_compute. reflexivity.
Qed.

(** ** More on [split] *)

Module SplitFacts.
Import PyStr PyStrFacts.

(** Whitespace before a token is skipped. *)
Lemma split_ws_skip (ws s : string) :
  all_space ws = true -> split_ws "" (ws +:+ s) = split_ws "" s.
Proof.
  induction ws as [|c ws IH]; [reflexivity|]. cbn [all_space].
  intros [Hc Hws]%andb_prop. rewrite app_cons. cbn [split_ws truthy].
  rewrite Hc. now apply IH.
Qed.

(** Whitespace after a token ends it. *)
Lemma split_ws_end_token (ws s cur : string) :
  all_space ws = true -> ws <> "" -> cur <> "" ->
  split_ws cur (ws +:+ s) = cur :: split_ws "" s.
Proof.
  destruct ws as [|c ws]; [congruence|]. cbn [all_space].
  intros [Hc Hws]%andb_prop _ Hcur%truthy_true.
  rewrite app_cons. cbn [split_ws]. rewrite Hc, Hcur.
  now rewrite split_ws_skip.
Qed.

(** Whitespace at the end of the string yields no token. *)
Lemma split_ws_trailing (ws cur : string) :
  all_space ws = true -> cur <> "" -> split_ws cur ws = [cur].
Proof.
  intros Hws Hcur. destruct ws as [|c ws].
  - cbn [split_ws]. now apply truthy_true in Hcur as ->.
  - rewrite <- (app_nil_r (String c ws)).
    rewrite split_ws_end_token by (auto; congruence). reflexivity.
Qed.

(** Three words, whatever whitespace stands before, between and after
    them. *)
Lemma split_three_tokens (pre t0 s1 t1 s2 t2 post : string) :
  all_space pre = true -> all_space post = true ->
  all_space s1 = true -> s1 <> "" -> all_space s2 = true -> s2 <> "" ->
  t0 <> "" -> has_space t0 = false ->
  t1 <> "" -> has_space t1 = false ->
  t2 <> "" -> has_space t2 = false ->
  split (pre +:+ t0 +:+ s1 +:+ t1 +:+ s2 +:+ t2 +:+ post) = [t0; t1; t2].
Proof.
  intros Hpre Hpost Hs1 N1 Hs2 N2 Nt0 Ht0 Nt1 Ht1 Nt2 Ht2. unfold split.
  rewrite split_ws_skip by exact Hpre.
  rewrite split_ws_word, app_nil_l by exact Ht0.
  rewrite split_ws_end_token by assumption.
  rewrite split_ws_word, app_nil_l by exact Ht1.
  rewrite split_ws_end_token by assumption.
  rewrite split_ws_word, app_nil_l by exact Ht2.
  now rewrite split_ws_trailing.
Qed.

(** A slice of a string without whitespace has none. *)
Lemma has_space_slice_1_m1 (s : string) :
  has_space s = false -> has_space (slice s 1 (-1)) = false.
Proof.
  intros H. destruct (Nat.lt_ge_cases (String.length s) 2) as [Hlen|Hlen].
  - now rewrite slice_1_m1_short.
  - destruct (slice_1_m1_long s Hlen) as (a & b & E).
    rewrite E in H. cbn [has_space] in H.
    apply orb_false_elim in H as [_ H]. rewrite has_space_app in H.
    now apply orb_false_elim in H as [H _].
Qed.

(** Without the separator in it, a string is one piece. *)
Lemma split_on_one_piece (sep : ascii) (s cur : string) :
  mem sep s = false -> split_on sep cur s = [cur +:+ s].
Proof.
  revert cur. induction s as [|c s IH]; intros cur; cbn [mem split_on].
  - now rewrite app_nil_r.
  - intros [Hc Hs]%orb_false_elim. rewrite Hc, IH by exact Hs.
    now rewrite app_snoc.
Qed.

End SplitFacts.

(** ** More on [get_pr_body] *)

Module BodyMore.
Import PyStr PyStrFacts SplitFacts.

(** A title written [<verb> <name> <a><version><b>], with any whitespace
    around and between the three words and any two characters [a] and [b]
    that are not whitespace around the version, gives back exactly [name]
    and [version] in the body. *)
Theorem get_pr_body_title_format (args : Namespace)
    (pre verb s1 name s2 version post : string) (a b : ascii) :
  title args = pre +:+ verb +:+ s1 +:+ name +:+ s2
               +:+ String a (version +:+ String b "") +:+ post ->
  all_space pre = true -> all_space post = true ->
  all_space s1 = true -> s1 <> "" -> all_space s2 = true -> s2 <> "" ->
  verb <> "" -> has_space verb = false ->
  name <> "" -> has_space name = false ->
  isspace a = false -> isspace b = false -> has_space version = false ->
  get_pr_body args =
    Ok (add_url_line "Test logs URL: " (test_logs_url args)
          (add_url_line "Test result URL: " (test_result_url args)
             ("**New operator bundle**" +:+ LF +:+ LF
              +:+ "Name: **" +:+ name +:+ "**" +:+ LF
              +:+ "Version: **" +:+ version +:+ "**" +:+ LF +:+ LF
              +:+ "Certification project: " +:+ cert_project_id args
              +:+ LF +:+ LF))).
Proof.
  intros Ht Hpre Hpost Hs1 N1 Hs2 N2 Nv Hv Nn Hn Ha Hb Hver.
  rewrite (BodyFacts.get_pr_body_three args verb name
             (String a (version +:+ String b "")) []).
  - now rewrite slice_1_m1_strip.
  - rewrite Ht. apply split_three_tokens; try assumption; [congruence|].
    cbn [has_space]. rewrite Ha, has_space_app, Hver. cbn [has_space orb].
    now rewrite Hb.
Qed.

Lemma get_pr_body_title_format_witness :
  get_pr_body
    (ex_args_titled
       (LF +:+ "Add" +:+ "  " +:+ "my-bundle" +:+ String "009" ""
           +:+ String "v" ("1.2.3" +:+ String "." "") +:+ " "))
  = Ok ("**New operator bundle**" +:+ LF +:+ LF
        +:+ "Name: **my-bundle**" +:+ LF
        +:+ "Version: **1.2.3**" +:+ LF +:+ LF
        +:+ "Certification project: CERT-42" +:+ LF +:+ LF).
Proof.
  etransitivity.
  - apply (get_pr_body_title_format _ LF "Add" "  " "my-bundle"
             (String "009" "") "1.2.3" " " "v" ".");
      first [reflexivity | discriminate].
  - reflexivity.
Defined.

(** The body is decided by the second and the third token of the title, the
    project id and the two URLs: the first token and whatever follows the
    third do not matter, nor does any other argument. This holds for the
    failure too. *)
Theorem get_pr_body_second_third (args args' : Namespace) :
  split (title args) !! 1%nat = split (title args') !! 1%nat ->
  split (title args) !! 2%nat = split (title args') !! 2%nat ->
  cert_project_id args = cert_project_id args' ->
  test_result_url args = test_result_url args' ->
  test_logs_url args = test_logs_url args' ->
  get_pr_body args = get_pr_body args'.
Proof.
  intros H1 H2 Hc Hr Hl. unfold get_pr_body, list_index.
  rewrite H1, H2, Hc, Hr, Hl. reflexivity.
Qed.

Lemma get_pr_body_second_third_witness :
  get_pr_body (ex_args_titled "Update my-bundle (1.2.3) for OCP 4.9")
  = get_pr_body ex_args.
Proof.
  apply (get_pr_body_second_third
           (ex_args_titled "Update my-bundle (1.2.3) for OCP 4.9") ex_args);
    vm_compute; reflexivity.
Defined.

(** With one optional URL given (and not empty) and the other one absent or
    empty, the body without URLs is followed by the one line of the URL
    given. *)
Theorem get_pr_body_one_url (args : Namespace) (base u : string) :
  get_pr_body (set_test_result_url None (set_test_logs_url None args))
    = Ok base ->
  u <> "" ->
  (get_pr_body (set_test_result_url (Some u) (set_test_logs_url None args))
   = Ok (base +:+ "Test result URL: " +:+ u +:+ LF)
   /\ get_pr_body
        (set_test_result_url (Some u) (set_test_logs_url (Some "") args))
      = Ok (base +:+ "Test result URL: " +:+ u +:+ LF))
  /\ (get_pr_body (set_test_result_url None (set_test_logs_url (Some u) args))
      = Ok (base +:+ "Test logs URL: " +:+ u +:+ LF)
      /\ get_pr_body
           (set_test_result_url (Some "") (set_test_logs_url (Some u) args))
         = Ok (base +:+ "Test logs URL: " +:+ u +:+ LF)).
Proof.
  intros Hbase N. apply truthy_true in N.
  destruct (split (title args)) as [|verb [|name [|ver rest]]] eqn:E.
  1-3: unfold get_pr_body in Hbase; cbn [title set_test_result_url
         set_test_logs_url] in Hbase; rewrite E in Hbase; discriminate.
  rewrite (BodyFacts.get_pr_body_three _ verb name ver rest) in Hbase
    by exact E.
  rewrite !(BodyFacts.get_pr_body_three _ verb name ver rest) by exact E.
  cbn [set_test_result_url set_test_logs_url test_result_url test_logs_url
       cert_project_id add_url_line truthy] in *.
  rewrite N. injection Hbase as <-.
  rewrite !app_assoc. auto.
Qed.

Lemma get_pr_body_one_url_witness :
  get_pr_body
    (set_test_result_url None
       (set_test_logs_url (Some "https://ci/logs") ex_args))
  = Ok ("**New operator bundle**" +:+ LF +:+ LF
        +:+ "Name: **my-bundle**" +:+ LF
        +:+ "Version: **1.2.3**" +:+ LF +:+ LF
        +:+ "Certification project: CERT-42" +:+ LF +:+ LF
        +:+ "Test logs URL: https://ci/logs" +:+ LF).
Proof.
  destruct (get_pr_body_one_url ex_args
              ("**New operator bundle**" +:+ LF +:+ LF
               +:+ "Name: **my-bundle**" +:+ LF
               +:+ "Version: **1.2.3**" +:+ LF +:+ LF
               +:+ "Certification project: CERT-42" +:+ LF +:+ LF)
              "https://ci/logs") as [_ [H _]].
  - reflexivity.
  - discriminate.
  - exact H.
Defined.

(** Whatever the title, the name and the version written in a body hold no
    whitespace, and the name is not empty: the title cannot break the
    [Name:] and [Version:] lines or add lines of its own. *)
Theorem get_pr_body_fields_one_word (args : Namespace) (body : string) :
  get_pr_body args = Ok body ->
  exists name version rest,
    body = "**New operator bundle**" +:+ LF +:+ LF
           +:+ "Name: **" +:+ name +:+ "**" +:+ LF
           +:+ "Version: **" +:+ version +:+ "**" +:+ LF +:+ LF
           +:+ rest
    /\ name <> "" /\ has_space name = false /\ has_space version = false.
Proof.
  intros Hbody.
  destruct (split (title args)) as [|verb [|name [|ver rest]]] eqn:E.
  1-3: unfold get_pr_body in Hbody; rewrite E in Hbody; discriminate.
  pose proof (split_tokens (title args)) as Htok. rewrite E in Htok.
  apply Forall_cons in Htok as [_ Htok].
  apply Forall_cons in Htok as [[Hn1 Hn2] Htok].
  apply Forall_cons in Htok as [[_ Hv] _].
  rewrite (BodyFacts.get_pr_body_three _ verb name ver rest) in Hbody
    by exact E.
  injection Hbody as <-.
  exists name, (slice ver 1 (-1)).
  exists (add_url_line "Test logs URL: " (test_logs_url args)
            (add_url_line "Test result URL: " (test_result_url args)
               ("Certification project: " +:+ cert_project_id args
                +:+ LF +:+ LF))).
  split; [|split; [now apply truthy_true|split;
                   [exact Hn2|now apply has_space_slice_1_m1]]].
  unfold add_url_line.
  destruct (test_result_url args) as [[|c1 u1]|],
           (test_logs_url args) as [[|c2 u2]|];
    cbn [truthy]; rewrite ?app_assoc; reflexivity.
Qed.

Lemma get_pr_body_fields_one_word_witness :
  exists name version rest,
    "**New operator bundle**" +:+ LF +:+ LF
      +:+ "Name: **my-bundle**" +:+ LF
      +:+ "Version: **1.2.3**" +:+ LF +:+ LF
      +:+ "Certification project: CERT-42" +:+ LF +:+ LF
    = "**New operator bundle**" +:+ LF +:+ LF
      +:+ "Name: **" +:+ name +:+ "**" +:+ LF
      +:+ "Version: **" +:+ version +:+ "**" +:+ LF +:+ LF
      +:+ rest
    /\ name <> "" /\ has_space name = false /\ has_space version = false.
Proof.
  apply (get_pr_body_fields_one_word ex_args). reflexivity.
Defined.

End BodyMore.

(** ** More on [get_head] *)

Lemma get_head_fails_only_in_parser_witness :
  ex_parser "not a url" = Raise (LibraryError "giturlparse").
Proof.
  apply (get_head_fails_only_in_parser ex_parser "not a url" "fix-1").
  reflexivity.
Defined.

Section HeadMore.
Import PyStr PyStrFacts SplitFacts.

Variable giturlparse_owner : string -> result string.

(** An owner without ["/"] is the namespace as a whole; so an empty owner
    gives the head [":{branch}"], with an empty namespace, and no error. *)
Theorem get_head_plain_owner (url branch path : string) :
  giturlparse_owner url = Ok path ->
  mem "/" path = false ->
  get_head giturlparse_owner url branch = Ok (path +:+ ":" +:+ branch)
  /\ (path = "" ->
      get_head giturlparse_owner url branch = Ok (":" +:+ branch)).
Proof.
  intros Hp Hm.
  assert (get_head giturlparse_owner url branch
          = Ok (path +:+ ":" +:+ branch)) as H.
  { unfold get_head, split_sep. rewrite Hp. cbn [bind_result].
    rewrite split_on_one_piece by exact Hm. reflexivity. }
  split; [exact H|]. intros E. rewrite H, E. reflexivity.
Qed.

End HeadMore.

Lemma get_head_plain_owner_witness :
  get_head ex_parser "https://github.com/alice/my-repo" "feature/x:1"
  = Ok "alice:feature/x:1".
Proof.
  apply (get_head_plain_owner ex_parser "https://github.com/alice/my-repo"
           "feature/x:1" "alice"); reflexivity.
Defined.

(** ** More on [open_pr] *)

Section OpenPRMore.
Import PyStr PyStrFacts.

Variable remote : Request -> result Response.
Variable py_repr : JSON -> string.

(** The five ways a call of [open_pr] can go. *)
Lemma open_pr_cases (api repo head base title body : string) (w : World) :
  (truthy_opt (environ w !! "GITHUB_TOKEN") = false
   /\ open_pr remote py_repr api repo head base title body w
      = (Raise (Exception
           "Github API token is missing. Set GITHUB_TOKEN env variable."),
         w))
  \/ exists token,
       environ w !! "GITHUB_TOKEN" = Some token /\ token <> ""
       /\ ((exists e,
              remote (pr_request api repo head base title body token)
                = Raise e
              /\ open_pr remote py_repr api repo head base title body w
                 = (Raise e,
                    mkWorld (environ w)
                      (sent w
                       ++ [pr_request api repo head base title body token])
                      (logged w)))
           \/ exists resp,
                remote (pr_request api repo head base title body token)
                  = Ok resp
                /\ ((400 <= status_code resp < 600
                     /\ open_pr remote py_repr api repo head base title body w
                        = (Raise (HTTPError resp),
                           mkWorld (environ w)
                             (sent w
                              ++ [pr_request api repo head base title body
                                    token])
                             (logged w
                              ++ (ERROR, "Got error code from Github API "
                                         +:+ of_int (status_code resp))
                                 :: match body_json resp with
                                    | Some (JObject pairs) =>
                                        [(ERROR,
                                          format_value py_repr
                                            (dict_get "message" pairs));
                                         (DEBUG, py_repr (JObject pairs))]
                                    | _ => []
                                    end)))
                    \/ (~ (400 <= status_code resp < 600)
                        /\ open_pr remote py_repr api repo head base title
                             body w
                           = (match body_json resp with
                              | Some j => Ok j
                              | None => Raise JSONDecodeError
                              end,
                              mkWorld (environ w)
                                (sent w
                                 ++ [pr_request api repo head base title body
                                       token])
                                (logged w))))).
Proof.
  destruct (environ w !! "GITHUB_TOKEN") as [token|] eqn:Htok;
    [destruct (truthy token) eqn:Ht|].
  - right. exists token. apply truthy_true in Ht.
    split; [reflexivity|]. split; [exact Ht|].
    rewrite (open_pr_with_token remote py_repr _ _ _ _ _ _ token)
      by assumption.
    cbv zeta. destruct (remote _) as [resp|e]; [right|left; eauto].
    exists resp. split; [reflexivity|].
    destruct (Z_le_dec 400 (status_code resp)) as [Hlo|Hlo];
      [destruct (Z_lt_dec (status_code resp) 600) as [Hhi|Hhi]|].
    + left. split; [lia|]. now rewrite after_error_status by lia.
    + right. split; [lia|]. rewrite after_other_status by lia.
      unfold resp_json. now destruct (body_json resp).
    + right. split; [lia|]. rewrite after_other_status by lia.
      unfold resp_json. now destruct (body_json resp).
  - left. split; [exact Ht|].
    apply open_pr_no_token. now rewrite Htok.
  - left. split; [reflexivity|].
    apply open_pr_no_token. now rewrite Htok.
Qed.

(** Whatever happens, [open_pr] leaves the environment alone, hands at most
    one request to the transport, never withdraws a request or a log record,
    and logs nothing when it returns a result. *)
Theorem open_pr_frame (api repo head base title body : string) (w : World) :
  exists (reqs : list Request) (logs : list (Level * string)),
    environ (snd (open_pr remote py_repr api repo head base title body w))
      = environ w
    /\ sent (snd (open_pr remote py_repr api repo head base title body w))
       = (sent w ++ reqs)%list
    /\ (length reqs <= 1)%nat
    /\ logged (snd (open_pr remote py_repr api repo head base title body w))
       = (logged w ++ logs)%list
    /\ (forall j : JSON,
          fst (open_pr remote py_repr api repo head base title body w) = Ok j
          -> logs = []).
Proof.
  destruct (open_pr_cases api repo head base title body w)
    as [[_ E]|(token & _ & _ & [(e & _ & E)|(resp & _ & [[_ E]|[_ E]])])];
    rewrite E; cbn [fst snd environ sent logged].
  - exists [], []. rewrite !List.app_nil_r. repeat split; auto.
  - eexists [_], []. rewrite List.app_nil_r. repeat split; auto.
  - eexists [_], _. repeat split; auto. discriminate.
  - eexists [_], []. rewrite List.app_nil_r. repeat split; auto.
Qed.

(** A result comes only from an answer of the transport to the one request
    sent with the token of the environment: its status is not an error
    status and the result is its decoded body. *)
Theorem open_pr_success_inv (api repo head base title body : string)
    (w w' : World) (j : JSON) :
  open_pr remote py_repr api repo head base title body w = (Ok j, w') ->
  exists token resp,
    environ w !! "GITHUB_TOKEN" = Some token /\ token <> ""
    /\ remote (pr_request api repo head base title body token) = Ok resp
    /\ ~ (400 <= status_code resp < 600)
    /\ body_json resp = Some j
    /\ w' = mkWorld (environ w)
              (sent w ++ [pr_request api repo head base title body token])
              (logged w).
Proof.
  intros H.
  destruct (open_pr_cases api repo head base title body w)
    as [[_ E]|(token & Ht & Hn & [(e & _ & E)|(resp & Hr & [[_ E]|[Hs E]])])];
    rewrite E in H; try discriminate.
  exists token, resp. destruct (body_json resp) as [j'|]; [|discriminate].
  injection H as <- <-. auto 10.
Qed.

(** A failure of the transport itself (no answer at all) is not caught: it
    comes out of [open_pr] as it is, after the request was handed over, and
    nothing is logged. *)
Theorem open_pr_transport_error (api repo head base title body token : string)
    (w : World) (e : exn) :
  environ w !! "GITHUB_TOKEN" = Some token -> token <> "" ->
  remote (pr_request api repo head base title body token) = Raise e ->
  open_pr remote py_repr api repo head base title body w
  = (Raise e,
     mkWorld (environ w)
       (sent w ++ [pr_request api repo head base title body token])
       (logged w)).
Proof.
  intros H N Hr.
  rewrite (open_pr_with_token remote py_repr _ _ _ _ _ _ token)
    by assumption.
  cbv zeta. now rewrite Hr.
Qed.

(** An answer whose status is no error status and whose body is not JSON
    makes [open_pr] fail with the decoding error, although the request was
    accepted; nothing is logged. *)
Theorem open_pr_body_not_json (api repo head base title body token : string)
    (w : World) (resp : Response) :
  environ w !! "GITHUB_TOKEN" = Some token -> token <> "" ->
  remote (pr_request api repo head base title body token) = Ok resp ->
  ~ (400 <= status_code resp < 600) ->
  body_json resp = None ->
  open_pr remote py_repr api repo head base title body w
  = (Raise JSONDecodeError,
     mkWorld (environ w)
       (sent w ++ [pr_request api repo head base title body token])
       (logged w)).
Proof.
  intros H N Hr Hs Hj.
  rewrite (open_pr_with_token remote py_repr _ _ _ _ _ _ token)
    by assumption.
  cbv zeta. rewrite Hr, after_other_status by exact Hs.
  unfold resp_json. now rewrite Hj.
Qed.

(** On an error status whose JSON object has no ["message"], or has [null]
    there, the message logged as an error is the text [None]. *)
Theorem open_pr_error_without_message
    (api repo head base title body token : string) (w : World)
    (resp : Response) (pairs : list (string * JSON)) :
  environ w !! "GITHUB_TOKEN" = Some token -> token <> "" ->
  remote (pr_request api repo head base title body token) = Ok resp ->
  400 <= status_code resp < 600 ->
  body_json resp = Some (JObject pairs) ->
  dict_get "message" pairs = None \/ dict_get "message" pairs = Some JNull ->
  logged (snd (open_pr remote py_repr api repo head base title body w))
  = (logged w
     ++ [(ERROR, "Got error code from Github API "
                 +:+ of_int (status_code resp));
         (ERROR, "None");
         (DEBUG, py_repr (JObject pairs))])%list.
Proof.
  intros H N Hr Hs Hj Hm.
  rewrite (open_pr_with_token remote py_repr _ _ _ _ _ _ token)
    by assumption.
  cbv zeta. rewrite Hr, after_error_status by exact Hs.
  cbn [snd logged]. rewrite Hj. now destruct Hm as [-> | ->].
Qed.

(** [open_pr] fails in four ways only: with its own exception for the missing
    token, with what the transport raised, with the [HTTPError] of an answer
    with an error status, or with the decoding error of the body of another
    answer. *)
Theorem open_pr_failure_kinds (api repo head base title body : string)
    (w : World) (e : exn) :
  fst (open_pr remote py_repr api repo head base title body w) = Raise e ->
  (e = Exception
         "Github API token is missing. Set GITHUB_TOKEN env variable."
   /\ truthy_opt (environ w !! "GITHUB_TOKEN") = false)
  \/ exists token,
       environ w !! "GITHUB_TOKEN" = Some token /\ token <> ""
       /\ (remote (pr_request api repo head base title body token) = Raise e
           \/ exists resp,
                remote (pr_request api repo head base title body token)
                  = Ok resp
                /\ ((e = HTTPError resp /\ 400 <= status_code resp < 600)
                    \/ (e = JSONDecodeError
                        /\ ~ (400 <= status_code resp < 600)
                        /\ body_json resp = None))).
Proof.
  intros H.
  destruct (open_pr_cases api repo head base title body w)
    as [[Ht E]|(token & Ht & Hn & [(e' & Hr & E)|(resp & Hr & [[Hs E]|[Hs E]])])];
    rewrite E in H; cbn [fst] in H.
  - left. split; [congruence|exact Ht].
  - right. exists token. split; [exact Ht|]. split; [exact Hn|].
    left. congruence.
  - right. exists token. split; [exact Ht|]. split; [exact Hn|].
    right. exists resp. split; [exact Hr|]. left. split; [congruence|lia].
  - right. exists token. split; [exact Ht|]. split; [exact Hn|].
    right. exists resp. split; [exact Hr|]. right.
    destruct (body_json resp); [discriminate|].
    split; [congruence|]. split; [exact Hs|reflexivity].
Qed.

End OpenPRMore.

Lemma open_pr_success_inv_witness :
  exists token resp,
    environ (ex_world (Some "tok")) !! "GITHUB_TOKEN" = Some token
    /\ token <> ""
    /\ ex_remote ex_created
         (pr_request "https://api.github.com" "acme/widget" "alice:fix-1"
            "main" "Operator my-bundle (1.2.3)" "text" token) = Ok resp
    /\ ~ (400 <= status_code resp < 600)
    /\ body_json resp
       = Some (JObject
           [("url",
             JString "https://api.github.com/repos/acme/widget/pulls/7")])
    /\ mkWorld (environ (ex_world (Some "tok"))) [ex_request] []
       = mkWorld (environ (ex_world (Some "tok")))
           (sent (ex_world (Some "tok"))
            ++ [pr_request "https://api.github.com" "acme/widget"
                  "alice:fix-1" "main" "Operator my-bundle (1.2.3)" "text"
                  token])
           (logged (ex_world (Some "tok"))).
Proof.
  apply (open_pr_success_inv (ex_remote ex_created) ex_repr).
  vm_compute. reflexivity.
Defined.

Lemma open_pr_transport_error_witness :
  open_pr ex_offline ex_repr "https://api.github.com" "acme/widget"
    "alice:fix-1" "main" "Operator my-bundle (1.2.3)" "text"
    (ex_world (Some "tok"))
  = (Raise (LibraryError "ConnectionError"),
     mkWorld (environ (ex_world (Some "tok")))
       (sent (ex_world (Some "tok")) ++ [ex_request])
       (logged (ex_world (Some "tok")))).
Proof.
  apply (open_pr_transport_error ex_offline ex_repr _ _ _ _ _ _ "tok").
  - vm_compute. reflexivity.
  - discriminate.
  - reflexivity.
Defined.

Lemma open_pr_body_not_json_witness :
  open_pr (ex_remote ex_html) ex_repr "https://api.github.com" "acme/widget"
    "alice:fix-1" "main" "Operator my-bundle (1.2.3)" "text"
    (ex_world (Some "tok"))
  = (Raise JSONDecodeError,
     mkWorld (environ (ex_world (Some "tok")))
       (sent (ex_world (Some "tok")) ++ [ex_request])
       (logged (ex_world (Some "tok")))).
Proof.
  apply (open_pr_body_not_json (ex_remote ex_html) ex_repr _ _ _ _ _ _ "tok"
           _ ex_html).
  - vm_compute. reflexivity.
  - discriminate.
  - reflexivity.
  - simpl. lia.
  - reflexivity.
Defined.

Lemma open_pr_error_without_message_witness :
  logged (snd (open_pr (ex_remote ex_not_found) ex_repr
                 "https://api.github.com" "acme/widget" "alice:fix-1" "main"
                 "Operator my-bundle (1.2.3)" "text" (ex_world (Some "tok"))))
  = [(ERROR, "Got error code from Github API 404");
     (ERROR, "None");
     (DEBUG, "<json>")].
Proof.
  apply (open_pr_error_without_message (ex_remote ex_not_found) ex_repr
           _ _ _ _ _ _ "tok" (ex_world (Some "tok")) ex_not_found
           [("documentation_url", JString "docs")]).
  - vm_compute. reflexivity.
  - discriminate.
  - reflexivity.
  - simpl. lia.
  - reflexivity.
  - left. reflexivity.
Defined.

Lemma open_pr_failure_kinds_witness :
  (HTTPError ex_invalid
   = Exception "Github API token is missing. Set GITHUB_TOKEN env variable."
   /\ truthy_opt (environ (ex_world (Some "tok")) !! "GITHUB_TOKEN") = false)
  \/ exists token,
       environ (ex_world (Some "tok")) !! "GITHUB_TOKEN" = Some token
       /\ token <> ""
       /\ (ex_remote ex_invalid
             (pr_request "https://api.github.com" "acme/widget" "alice:fix-1"
                "main" "Operator my-bundle (1.2.3)" "text" token)
           = Raise (HTTPError ex_invalid)
           \/ exists resp,
                ex_remote ex_invalid
                  (pr_request "https://api.github.com" "acme/widget"
                     "alice:fix-1" "main" "Operator my-bundle (1.2.3)" "text"
                     token) = Ok resp
                /\ ((HTTPError ex_invalid = HTTPError resp
                     /\ 400 <= status_code resp < 600)
                    \/ (HTTPError ex_invalid = JSONDecodeError
                        /\ ~ (400 <= status_code resp < 600)
                        /\ body_json resp = None))).
Proof.
  apply (open_pr_failure_kinds (ex_remote ex_invalid) ex_repr
           "https://api.github.com" "acme/widget" "alice:fix-1" "main"
           "Operator my-bundle (1.2.3)" "text" (ex_world (Some "tok"))).
  vm_compute. reflexivity.
Defined.

(** ** [main] *)

Section MainFacts.
Import PyStr PyStrFacts.

Variable giturlparse_owner : string -> result string.
Variable remote : Request -> result Response.
Variable py_repr : JSON -> string.

(** When the body cannot be made, [main] stops there. *)
Lemma main_body_fails (args : Namespace) (p : Process) (e : exn) :
  get_pr_body args = Raise e ->
  main giturlparse_owner remote py_repr args p
  = (Raise e,
     mkProcess (configured p ++ [if verbose args then DEBUG else INFO])
       (world p)).
Proof. intros H. unfold main, bind, lift_result. now rewrite H. Qed.

(** When the head cannot be made, [main] stops there. *)
Lemma main_head_fails (args : Namespace) (p : Process) (pr_body : string)
    (e : exn) :
  get_pr_body args = Ok pr_body ->
  get_head giturlparse_owner (repository_url args) (source_branch args)
    = Raise e ->
  main giturlparse_owner remote py_repr args p
  = (Raise e,
     mkProcess (configured p ++ [if verbose args then DEBUG else INFO])
       (world p)).
Proof.
  intros Hb Hh. unfold main, bind, lift_result. now rewrite Hb, Hh.
Qed.

(** With the body and the head, [main] calls [open_pr] and reads the
    ["url"] of its result. *)
Lemma main_runs_open_pr (args : Namespace) (p : Process)
    (pr_body head : string) :
  get_pr_body args = Ok pr_body ->
  get_head giturlparse_owner (repository_url args) (source_branch args)
    = Ok head ->
  main giturlparse_owner remote py_repr args p
  = match open_pr remote py_repr (github_api_url args) (repository_name args)
            head (target_branch args) (title args) pr_body (world p) with
    | (Raise e, w) =>
        (Raise e,
         mkProcess (configured p ++ [if verbose args then DEBUG else INFO]) w)
    | (Ok (JObject pairs), w) =>
        (Ok tt,
         mkProcess (configured p ++ [if verbose args then DEBUG else INFO])
           (mkWorld (environ w) (sent w)
              (logged w
               ++ [(INFO, "Pull request URL: "
                          +:+ format_value py_repr (dict_get "url" pairs))])))
    | (Ok _, w) =>
        (Raise AttributeError,
         mkProcess (configured p ++ [if verbose args then DEBUG else INFO]) w)
    end.
Proof.
  intros Hb Hh. unfold main, bind at 1 2 3, lift_result. rewrite Hb, Hh.
  cbn [logging_basicConfig world configured].
  destruct (open_pr _ _ _ _ _ _ _ _ _) as [[j|e] w]; [|reflexivity].
  destruct j; reflexivity.
Qed.


(** A title of fewer than three tokens stops [main] at once, with the
    [IndexError] of [get_pr_body]: logging was configured, and nothing else
    happened, whatever the repository URL, the token and the transport
    are. *)
Theorem main_malformed_title (args : Namespace) (p : Process) :
  (length (split (title args)) < 3)%nat ->
  main giturlparse_owner remote py_repr args p
  = (Raise IndexError,
     mkProcess (configured p ++ [if verbose args then DEBUG else INFO])
       (world p)).
Proof.
  intros H. apply main_body_fails.
  destruct (split (title args)) as [|verb [|name [|ver rest]]] eqn:E;
    [unfold get_pr_body; now rewrite E..|cbn [length] in H; lia].
Qed.

(** With a title of three tokens or more, a repository URL the parser
    rejects stops [main] with the parser's error before the token is read
    and before any request: the world is as it was. *)
Theorem main_invalid_url (args : Namespace) (p : Process) (e : exn) :
  (3 <= length (split (title args)))%nat ->
  giturlparse_owner (repository_url args) = Raise e ->
  main giturlparse_owner remote py_repr args p
  = (Raise e,
     mkProcess (configured p ++ [if verbose args then DEBUG else INFO])
       (world p)).
Proof.
  intros Ht Hp.
  destruct (split (title args)) as [|verb [|name [|ver rest]]] eqn:E;
    cbn [length] in Ht; try lia.
  apply (main_head_fails args p _ e
           (BodyFacts.get_pr_body_three args verb name ver rest E)).
  unfold get_head. now rewrite Hp.
Qed.

(** The whole run: with a body, a head and a token, [main] sends the one
    request made of the API URL, the repository name, the head, the target
    branch, the title and the body; when the answer (no error status) is a
    JSON object whose ["url"] is the string [u], it logs
    ["Pull request URL: {u}"] as information and returns. *)
Theorem main_logs_url (args : Namespace) (p : Process)
    (pr_body head token u : string) (resp : Response)
    (pairs : list (string * JSON)) :
  get_pr_body args = Ok pr_body ->
  get_head giturlparse_owner (repository_url args) (source_branch args)
    = Ok head ->
  environ (world p) !! "GITHUB_TOKEN" = Some token -> token <> "" ->
  remote (pr_request (github_api_url args) (repository_name args) head
            (target_branch args) (title args) pr_body token) = Ok resp ->
  ~ (400 <= status_code resp < 600) ->
  body_json resp = Some (JObject pairs) ->
  dict_get "url" pairs = Some (JString u) ->
  main giturlparse_owner remote py_repr args p
  = (Ok tt,
     mkProcess (configured p ++ [if verbose args then DEBUG else INFO])
       (mkWorld (environ (world p))
          (sent (world p)
           ++ [pr_request (github_api_url args) (repository_name args) head
                 (target_branch args) (title args) pr_body token])
          (logged (world p) ++ [(INFO, "Pull request URL: " +:+ u)]))).
Proof.
  intros Hb Hh Ht Hn Hr Hs Hj Hu.
  rewrite (main_runs_open_pr args p pr_body head Hb Hh).
  rewrite (open_pr_other_status remote py_repr _ _ _ _ _ _ token
             (world p) resp (JObject pairs)) by assumption.
  cbn [environ sent logged]. now rewrite Hu.
Qed.

(** When the JSON object of the answer has no ["url"], [main] still returns
    normally, and the line logged is ["Pull request URL: None"]. *)
Theorem main_url_missing (args : Namespace) (p : Process)
    (pr_body head token : string) (resp : Response)
    (pairs : list (string * JSON)) :
  get_pr_body args = Ok pr_body ->
  get_head giturlparse_owner (repository_url args) (source_branch args)
    = Ok head ->
  environ (world p) !! "GITHUB_TOKEN" = Some token -> token <> "" ->
  remote (pr_request (github_api_url args) (repository_name args) head
            (target_branch args) (title args) pr_body token) = Ok resp ->
  ~ (400 <= status_code resp < 600) ->
  body_json resp = Some (JObject pairs) ->
  dict_get "url" pairs = None ->
  fst (main giturlparse_owner remote py_repr args p) = Ok tt
  /\ logged (world (snd (main giturlparse_owner remote py_repr args p)))
     = (logged (world p) ++ [(INFO, "Pull request URL: None")])%list.
Proof.
  intros Hb Hh Ht Hn Hr Hs Hj Hu.
  rewrite (main_runs_open_pr args p pr_body head Hb Hh).
  rewrite (open_pr_other_status remote py_repr _ _ _ _ _ _ token
             (world p) resp (JObject pairs)) by assumption.
  cbn [fst snd world environ sent logged]. now rewrite Hu.
Qed.

(** When the answer decodes to JSON that is not an object, [main] fails with
    [AttributeError] on reading ["url"], after the request was sent and
    accepted, and logs nothing. *)
Theorem main_response_not_object (args : Namespace) (p : Process)
    (pr_body head token : string) (resp : Response) (j : JSON) :
  get_pr_body args = Ok pr_body ->
  get_head giturlparse_owner (repository_url args) (source_branch args)
    = Ok head ->
  environ (world p) !! "GITHUB_TOKEN" = Some token -> token <> "" ->
  remote (pr_request (github_api_url args) (repository_name args) head
            (target_branch args) (title args) pr_body token) = Ok resp ->
  ~ (400 <= status_code resp < 600) ->
  body_json resp = Some j ->
  (forall pairs, j <> JObject pairs) ->
  main giturlparse_owner remote py_repr args p
  = (Raise AttributeError,
     mkProcess (configured p ++ [if verbose args then DEBUG else INFO])
       (mkWorld (environ (world p))
          (sent (world p)
           ++ [pr_request (github_api_url args) (repository_name args) head
                 (target_branch args) (title args) pr_body token])
          (logged (world p)))).
Proof.
  intros Hb Hh Ht Hn Hr Hs Hj Hno.
  rewrite (main_runs_open_pr args p pr_body head Hb Hh).
  rewrite (open_pr_other_status remote py_repr _ _ _ _ _ _ token
             (world p) resp j) by assumption.
  destruct j; try reflexivity. now destruct (Hno pairs).
Qed.

(** [main] handles no failure of [open_pr]: it fails with the same
    exception, in the world [open_pr] left, and logs no URL. *)
Theorem main_open_pr_failure (args : Namespace) (p : Process)
    (pr_body head : string) (e : exn) (w' : World) :
  get_pr_body args = Ok pr_body ->
  get_head giturlparse_owner (repository_url args) (source_branch args)
    = Ok head ->
  open_pr remote py_repr (github_api_url args) (repository_name args) head
    (target_branch args) (title args) pr_body (world p) = (Raise e, w') ->
  main giturlparse_owner remote py_repr args p
  = (Raise e,
     mkProcess (configured p ++ [if verbose args then DEBUG else INFO]) w').
Proof.
  intros Hb Hh Ho.
  rewrite (main_runs_open_pr args p pr_body head Hb Hh). now rewrite Ho.
Qed.


End MainFacts.

Lemma main_malformed_title_witness :
  main ex_parser ex_offline ex_repr (ex_args_titled "my-bundle (1.2.3)")
    (ex_process None)
  = (Raise IndexError, mkProcess [INFO] (ex_world None)).
Proof.
  rewrite (main_malformed_title ex_parser ex_offline ex_repr
             (ex_args_titled "my-bundle (1.2.3)") (ex_process None)).
  - reflexivity.
  - vm_compute. lia.
Defined.

Lemma main_invalid_url_witness :
  main ex_parser ex_offline ex_repr (ex_args_at "not a url") (ex_process None)
  = (Raise (LibraryError "giturlparse"), mkProcess [INFO] (ex_world None)).
Proof.
  rewrite (main_invalid_url ex_parser ex_offline ex_repr
             (ex_args_at "not a url") (ex_process None)
             (LibraryError "giturlparse")).
  - reflexivity.
  - vm_compute. lia.
  - reflexivity.
Defined.

Lemma main_logs_url_witness :
  main ex_parser (ex_remote ex_created) ex_repr ex_args
    (ex_process (Some "tok"))
  = (Ok tt,
     mkProcess [INFO]
       (mkWorld (environ (ex_world (Some "tok"))) [ex_main_request]
          [(INFO,
            "Pull request URL: https://api.github.com/repos/acme/widget/pulls/7")])).
Proof.
  rewrite (main_logs_url ex_parser (ex_remote ex_created) ex_repr ex_args
             (ex_process (Some "tok")) ex_body "alice:fix-1" "tok"
             "https://api.github.com/repos/acme/widget/pulls/7" ex_created
             [("url",
               JString "https://api.github.com/repos/acme/widget/pulls/7")]).
  - reflexivity.
  - reflexivity.
  - reflexivity.
  - vm_compute. reflexivity.
  - discriminate.
  - reflexivity.
  - simpl. lia.
  - reflexivity.
  - reflexivity.
Defined.

Lemma main_url_missing_witness :
  fst (main ex_parser (ex_remote ex_no_url) ex_repr ex_args
         (ex_process (Some "tok"))) = Ok tt
  /\ logged (world (snd (main ex_parser (ex_remote ex_no_url) ex_repr ex_args
                           (ex_process (Some "tok")))))
     = [(INFO, "Pull request URL: None")].
Proof.
  apply (main_url_missing ex_parser (ex_remote ex_no_url) ex_repr ex_args
           (ex_process (Some "tok")) ex_body "alice:fix-1" "tok" ex_no_url
           [("id", JNumber "7")]).
  - reflexivity.
  - reflexivity.
  - vm_compute. reflexivity.
  - discriminate.
  - reflexivity.
  - simpl. lia.
  - reflexivity.
  - reflexivity.
Defined.

Lemma main_response_not_object_witness :
  main ex_parser (ex_remote ex_list) ex_repr ex_args (ex_process (Some "tok"))
  = (Raise AttributeError,
     mkProcess [INFO]
       (mkWorld (environ (ex_world (Some "tok"))) [ex_main_request] [])).
Proof.
  rewrite (main_response_not_object ex_parser (ex_remote ex_list) ex_repr
             ex_args (ex_process (Some "tok")) ex_body "alice:fix-1" "tok"
             ex_list (JArray [])).
  - reflexivity.
  - reflexivity.
  - reflexivity.
  - vm_compute. reflexivity.
  - discriminate.
  - reflexivity.
  - simpl. lia.
  - reflexivity.
  - discriminate.
Defined.

Lemma main_open_pr_failure_witness :
  main ex_parser (ex_remote ex_created) ex_repr ex_args (ex_process None)
  = (Raise (Exception
       "Github API token is missing. Set GITHUB_TOKEN env variable."),
     mkProcess [INFO] (ex_world None)).
Proof.
  rewrite (main_open_pr_failure ex_parser (ex_remote ex_created) ex_repr
             ex_args (ex_process None) ex_body "alice:fix-1"
             (Exception
                "Github API token is missing. Set GITHUB_TOKEN env variable.")
             (ex_world None)).
  - reflexivity.
  - reflexivity.
  - reflexivity.
  - vm_compute. reflexivity.
Defined.
